(** * Verification of [bids/modeling/auto_model.py]

    A shallow embedding of [_make_passthrough_contrast] and [auto_model]
    and the properties of the model documents they build.

    Conventions of the embedding:
    - Python [dict]s with a fixed set of keys are records; a key that is
      only sometimes set is an [option] field ([None] = key absent).
    - Python [dict]s that are looked up by a computed key are [gmap]s and a
      failed lookup raises [KeyError].
    - Exceptions are values of [exn], carried by the [result] monad.
    - Python [int]s are [Z]; Python/numpy floats are the rationals they
      denote ([Q]): rounding of binary64 is not modelled, so equalities
      between floats that hold below are exact in the rationals and hold
      up to rounding in the program.
    - [str] is [string]; comparison is by code unit, as numpy and Python
      compare. *)

From Stdlib Require Import QArith Ascii.
From stdpp Require Import base list strings gmap sorting.

Local Open Scope Z_scope.

(** ** Exceptions and the result monad *)

Inductive exn : Type :=
| KeyError (key : string)
| IndexError
| ZeroDivisionError
| LoadError (msg : string).

Inductive result (A : Type) : Type :=
| Ok (a : A)
| Raise (e : exn).
Arguments Ok {A} a.
Arguments Raise {A} e.

#[global] Instance result_ret : MRet result := fun _ a => Ok a.
#[global] Instance result_bind : MBind result := fun _ _ f m =>
  match m with
  | Ok a => f a
  | Raise e => Raise e
  end.

(** [for x in xs: acc.append(f(x))] with a body that may raise. *)
Fixpoint for_each {A B} (f : A -> result B) (xs : list A) : result (list B) :=
  match xs with
  | [] => Ok []
  | x :: xs' => y ← f x; ys ← for_each f xs'; Ok (y :: ys)
  end.

(** [d[k]] on a dict. *)
Definition getitem {V} (d : gmap string V) (k : string) : result V :=
  match d !! k with
  | Some v => Ok v
  | None => Raise (KeyError k)
  end.

(** ** Python values *)

Inductive number : Type :=
| PyInt (z : Z)
| PyFloat (q : Q).


(** [a / b] for a float [a] and an int [b]. *)
Definition truediv (a : Q) (b : Z) : result Q :=
  if decide (b = 0) then Raise ZeroDivisionError
  else Ok (a / inject_Z b)%Q.

(** [str.lower], on the ASCII range. *)
Definition ascii_lower (c : ascii) : ascii :=
  let n := N_of_ascii c in
  if ((65 <=? n) && (n <=? 90))%N then ascii_of_N (n + 32) else c.

Fixpoint lower (s : string) : string :=
  match s with
  | EmptyString => EmptyString
  | String c s' => String (ascii_lower c) (lower s')
  end.

(** ** numpy *)

(** [np.ones(n)] *)
Definition np_ones (n : nat) : list number := replicate n (PyFloat 1).

(** [a != x], element by element. *)
Definition np_ne (a : list string) (x : string) : list bool :=
  map (fun y => bool_decide (y ≠ x)) a.

(** [a[mask] = v] for a boolean [mask]; numpy raises [IndexError] when
    the mask and the array differ in length. *)
Definition setitem_mask (a : list number) (mask : list bool) (v : number)
  : result (list number) :=
  if decide (length mask = length a)
  then Ok (zip_with (fun w (b : bool) => if b then v else w) a mask)
  else Raise IndexError.

(** [np.unique(ar)] for a flat sequence of strings: numpy sorts a copy and
    keeps position 0 and every position that differs from the one before
    it ([mask[1:] = ar[1:] != ar[:-1]]). *)
Fixpoint keep_changes (prev : string) (ar : list string) : list string :=
  match ar with
  | [] => []
  | x :: ar' =>
      if decide (x = prev) then keep_changes x ar'
      else x :: keep_changes x ar'
  end.

Definition np_unique (ar : list string) : list string :=
  match merge_sort String.le ar with
  | [] => []
  | x :: ar' => x :: keep_changes x ar'
  end.

(** ** The model document *)

Module Contrast.
Record t : Type := mk {
    Name : string;
    ConditionList : list string;
    Weights : list number;
    Test : string
  }.
End Contrast.

Module HRF.
Record t : Type := mk {
    Variables : list string;
    Model : string;
    Parameters : list (string * number)
  }.
End HRF.

Module Model.
Record t : Type := mk {
    Type_ : string;
    X : list string;
    HRF : option HRF.t
  }.
End Model.

Module Instruction.
Record t : Type := mk {
    Name : string;
    Input : string
  }.
End Instruction.

Module Transformations.
Record t : Type := mk {
    Transformer : string;
    Instructions : list Instruction.t
  }.
End Transformations.

Module Node.
Record t : Type := mk {
    Level : string;
    Name : string;
    GroupBy : list string;
    Transformations : option Transformations.t;
    Model : Model.t;
    Contrasts : option (list Contrast.t)
  }.
End Node.

Module TaskModel.
Record t : Type := mk {
    Name : string;
    Description : string;
    BIDSModelVersion : string;
    Input : gmap string (list string);
    Nodes : list Node.t
  }.
End TaskModel.

(** ** The dataset and the variable loader *)

(** Modelled from the spec: the [BIDSLayout] of [bids.layout] is not part
    of this file. It is what [auto_model] reads of it (section 6 of the
    specification): [layout._root.name], [layout.entities[e].unique()] for
    an entity [e] of the dataset, [layout.get_sessions()] and
    [layout.get_subjects()]. *)
Record BIDSLayout : Type := {
  root_name : string;
  entities : gmap string (list string);
  get_sessions : list string;
  get_subjects : list string
}.

(** Modelled from the spec: the run nodes of [bids.variables] are not part
    of this file. A node has a dict [variables], from the name of a
    variable to the variable; section 6 of the specification gives the
    values of a variable as a sequence of string labels, which
    [n.variables[v].values.values] reads. *)
Record RunNode : Type := {
  variables : gmap string (list string)
}.

(** Modelled from the spec: the index [load_variables] returns, of which
    [auto_model] reads the list [nodes]. *)
Record NodeIndex : Type := {
  nodes : list RunNode
}.

(** ** [_make_passthrough_contrast] *)

Definition gb_dict : gmap string (list string) :=
  <["Subject" := ["subject"; "contrast"]]>
  (<["Session" := ["session"; "contrast"]]>
  (<["Dataset" := ["contrast"]]> ∅)).

Definition _make_passthrough_contrast
    (level : string) (contrast_names : list string)
    (model_type : string) (test : string) : result Node.t :=
  gb ← getitem gb_dict level;
  let contrasts :=
    map (fun cn => Contrast.mk (lower level +:+ "_" +:+ cn) [cn] [PyInt 1] test)
        contrast_names in
  Ok (Node.mk level level gb None
        (Model.mk model_type contrast_names None)
        (Some contrasts)).

(** Defaults of the keyword parameters. *)
Definition default_model_type : string := "glm".
Definition default_test : string := "t".

(** ** [auto_model] *)

Section auto_model.

(** [bids.variables.load_variables(layout, task=, levels=, scan_length=)],
    the variable-loading collaborator. It may raise. *)
Variable load_variables :
  BIDSLayout -> string -> list string -> option Z -> result NodeIndex.

(** Lines 81-83: [evs.extend(n.variables['trial_type'].values.values)]
    for every loaded run node. *)
Fixpoint collect_evs (ns : list RunNode) : result (list string) :=
  match ns with
  | [] => Ok []
  | n :: ns' =>
      vals ← getitem (variables n) "trial_type";
      evs ← collect_evs ns';
      Ok (vals ++ evs)
  end.

(** Lines 114-119: the weights of the contrast of [tt]. The division is
    evaluated before the assignment; [except ZeroDivisionError: pass]
    leaves [weights] as [np.ones] made it. *)
Definition contrast_weights (trial_types : list string) (tt : string)
  : result (list number) :=
  let weights := np_ones (length trial_types) in
  let assigned :=
    v ← truediv (-1) (Z.of_nat (length trial_types) - 1);
    setitem_mask weights (np_ne trial_types tt) (PyFloat v) in
  match assigned with
  | Raise ZeroDivisionError => Ok weights
  | r => r
  end.

(** Lines 105-122: the body of [for tt in trial_types]. *)
Definition run_contrast (trial_types trial_type_factors : list string)
    (tt : string) : result Contrast.t :=
  let name :=
    if bool_decide (1 < length trial_types)%nat
    then "run_" +:+ tt +:+ "_vs_others"
    else "run_" +:+ tt in
  weights ← contrast_weights trial_types tt;
  Ok (Contrast.mk name trial_type_factors weights "t").

(** [blk["Contrasts"] = contrasts] *)
Definition set_Contrasts (blk : Node.t) (contrasts : list Contrast.t)
  : Node.t :=
  Node.mk (Node.Level blk) (Node.Name blk) (Node.GroupBy blk)
    (Node.Transformations blk) (Node.Model blk) (Some contrasts).

(** Lines 63-75 and 87-100: the run level block as it is before the
    contrasts are attached. *)
Definition run_base (trial_type_factors : list string) : Node.t :=
  let transformations :=
    Transformations.mk "pybids-transforms-v1"
      [Instruction.mk "Factor" "trial_type"] in
  let run_model :=
    Model.mk "glm" trial_type_factors
      (Some (HRF.mk trial_type_factors "DoubleGamma"
               [("PeakDelay", PyInt 3);
                ("PeakDispersion", PyInt 6);
                ("UndershootDelay", PyInt 10);
                ("UndershootDispersion", PyInt 12);
                ("PeakUndershootRatio", PyFloat (2 # 10))])) in
  Node.mk "Run" "Run" ["run"; "subject"] (Some transformations)
    run_model None.

(** Lines 85-125: the factor names, the run level block and, when
    [one_vs_rest], its contrasts. *)
Definition run_block (one_vs_rest : bool) (trial_types : list string)
  : result Node.t :=
  let trial_type_factors := map (fun tt => "trial_type." +:+ tt) trial_types in
  let run := run_base trial_type_factors in
  if one_vs_rest then
    contrasts ← for_each (run_contrast trial_types trial_type_factors)
                         trial_types;
    Ok (set_Contrasts run contrasts)
  else Ok run.

(** [[cc["Name"] for cc in nodes[-1]["Contrasts"]]] *)
Definition last_contrast_names (nodes : list Node.t) : result (list string) :=
  match last nodes with
  | None => Raise IndexError
  | Some blk =>
      match Node.Contrasts blk with
      | None => Raise (KeyError "Contrasts")
      | Some ccs => Ok (map Contrast.Name ccs)
      end
  end.

(** [nodes.append(_make_passthrough_contrast(level, contrast_names, ...))]
    with the contrast names of the previous block. *)
Definition append_passthrough (nodes : list Node.t)
    (level model_type : string) : result (list Node.t) :=
  contrast_names ← last_contrast_names nodes;
  blk ← _make_passthrough_contrast level contrast_names model_type default_test;
  Ok (nodes ++ [blk]).

(** Lines 127-147. *)
Definition aggregate (layout : BIDSLayout) (nodes : list Node.t)
  : result (list Node.t) :=
  let sessions := get_sessions layout in
  nodes ←
    (if bool_decide (1 < length sessions)%nat
     then append_passthrough nodes "Session" "meta"
     else Ok nodes);
  let subjects := get_subjects layout in
  nodes ←
    (if bool_decide (1 < length subjects)%nat
     then append_passthrough nodes "Subject" "meta"
     else Ok nodes);
  append_passthrough nodes "Dataset" default_model_type.

(** Lines 53-150: the body of [for task_name in tasks]. *)
Definition task_model (layout : BIDSLayout) (scan_length : option Z)
    (one_vs_rest : bool) (base_name task_name : string)
  : result TaskModel.t :=
  let name := base_name +:+ "_" +:+ task_name in
  let description :=
    "Autogenerated model for the " +:+ task_name +:+ " task from "
      +:+ base_name in
  run_nodes ← load_variables layout task_name ["run"] scan_length;
  evs ← collect_evs (nodes run_nodes);
  let trial_types := np_unique evs in
  run ← run_block one_vs_rest trial_types;
  let nodes := [run] in
  nodes ← (if one_vs_rest then aggregate layout nodes else Ok nodes);
  Ok (TaskModel.mk name description "1.0.0" {[ "task" := [task_name] ]} nodes).

Definition auto_model (layout : BIDSLayout) (scan_length : option Z)
    (one_vs_rest : bool) : result (list TaskModel.t) :=
  let base_name := root_name layout in
  tasks ← getitem (entities layout) "task";
  for_each (task_model layout scan_length one_vs_rest base_name) tasks.

End auto_model.

(** * Vocabulary of the properties *)

(** ** Order of the labels *)

(** The strict lexicographic order of strings. *)
Definition String_lt : relation string := strict String.le.

(** ** Weights of the one-vs-rest contrasts *)

(** The weight given to the other trial types among [k]. *)
Definition rest_weight (k : nat) : Q := (-1 / inject_Z (Z.of_nat k - 1))%Q.


(** The weight vector when no division by zero occurs. *)
Definition masked_weights (k : nat) (trial_types : list string) (tt : string)
  : list number :=
  map (fun x => if bool_decide (x ≠ tt) then PyFloat (rest_weight k)
                else PyFloat 1) trial_types.

(** ** Closed forms of the blocks *)

(** [trial_type_factors] *)
Definition factors (trial_types : list string) : list string :=
  map (fun tt => "trial_type." +:+ tt) trial_types.

(** The weight vector of the contrast of [tt]. *)
Definition ovr_weights (trial_types : list string) (tt : string)
  : list number :=
  if decide (length trial_types = 1%nat) then [PyFloat 1]
  else masked_weights (length trial_types) trial_types tt.

(** The name of the contrast of [tt] among [k] trial types. *)
Definition ovr_name (k : nat) (tt : string) : string :=
  if bool_decide (1 < k)%nat then "run_" +:+ tt +:+ "_vs_others"
  else "run_" +:+ tt.

(** The run level contrast of [tt]. *)
Definition ovr_contrast (trial_types : list string) (tt : string)
  : Contrast.t :=
  Contrast.mk (ovr_name (length trial_types) tt) (factors trial_types)
    (ovr_weights trial_types tt) "t".

(** The contrast a passthrough block makes of the inherited name [cn]. *)
Definition dummy_contrast (prefix cn : string) : Contrast.t :=
  Contrast.mk (prefix +:+ "_" +:+ cn) [cn] [PyInt 1] "t".

(** The block [_make_passthrough_contrast] returns for a level whose
    lower-case form is [prefix] and whose GroupBy is [gb]. *)
Definition passthrough (level prefix : string) (gb : list string)
    (model_type : string) (names : list string) : Node.t :=
  Node.mk level level gb None (Model.mk model_type names None)
    (Some (map (dummy_contrast prefix) names)).

(** The three blocks [auto_model] asks for. *)
Definition Session_block (names : list string) : Node.t :=
  passthrough "Session" "session" ["session"; "contrast"] "meta" names.

Definition Subject_block (names : list string) : Node.t :=
  passthrough "Subject" "subject" ["subject"; "contrast"] "meta" names.

Definition Dataset_block (names : list string) : Node.t :=
  passthrough "Dataset" "dataset" ["contrast"] "glm" names.

(** The names of the contrasts a passthrough block makes. *)
Definition inherit (prefix : string) (names : list string) : list string :=
  map (fun cn => prefix +:+ "_" +:+ cn) names.

(** The blocks appended after the run block whose contrasts are named
    [names]. *)
Definition upper (multi_session multi_subject : bool) (names : list string)
  : list Node.t :=
  match multi_session, multi_subject with
  | true, true =>
      [Session_block names; Subject_block (inherit "session" names);
       Dataset_block (inherit "subject" (inherit "session" names))]
  | true, false =>
      [Session_block names; Dataset_block (inherit "session" names)]
  | false, true =>
      [Subject_block names; Dataset_block (inherit "subject" names)]
  | false, false => [Dataset_block names]
  end.

(** As many weights as conditions. *)
Definition lengths_agree (c : Contrast.t) : Prop :=
  length (Contrast.Weights c) = length (Contrast.ConditionList c).

(** The levels of the passthrough blocks, each with its lower-case form
    and its GroupBy. *)
Definition passthrough_levels : list (string * string * list string) :=
  [("Session", "session", ["session"; "contrast"]);
   ("Subject", "subject", ["subject"; "contrast"]);
   ("Dataset", "dataset", ["contrast"])].

(** ** Loading *)

(** The loader returns run nodes for the task and each of them has a
    [trial_type] variable. *)
Definition loadable
    (load_variables :
       BIDSLayout -> string -> list string -> option Z -> result NodeIndex)
    (layout : BIDSLayout) (scan_length : option Z) (task_name : string)
  : Prop :=
  exists run_nodes valss,
    load_variables layout task_name ["run"] scan_length = Ok run_nodes
    /\ Forall2 (fun n vals => variables n !! "trial_type" = Some vals)
         (nodes run_nodes) valss.

(** ** A dataset to run the model on *)

(** Task "rest" has two runs, with the trial types go and stop; task
    "single" has one run with the trial type go only; task "empty" has no
    run; the second run of task "bare" has no [trial_type] variable.
    There are two sessions and one subject. *)

Definition demo_layout : BIDSLayout :=
  {| root_name := "ds";
     entities := {[ "task" := ["rest"; "single"] ]};
     get_sessions := ["1"; "2"];
     get_subjects := ["01"] |}.

Definition demo_valss : list (list string) := [["stop"; "go"; "stop"]; ["go"]].

Definition with_trial_type (vals : list string) : RunNode :=
  {| variables := {[ "trial_type" := vals ]} |}.

Definition bare_node : RunNode := {| variables := {[ "rt" := ["0.5"] ]} |}.

Definition demo_load (layout : BIDSLayout) (task : string)
    (levels : list string) (scan_length : option Z) : result NodeIndex :=
  if decide (task = "rest") then
    Ok {| nodes := map with_trial_type demo_valss |}
  else if decide (task = "single") then
    Ok {| nodes := [with_trial_type ["go"; "go"]] |}
  else if decide (task = "empty") then Ok {| nodes := [] |}
  else if decide (task = "bare") then
    Ok {| nodes := [with_trial_type ["go"]; bare_node] |}
  else Raise (LoadError task).

(** The same dataset with a task in the middle that the loader does not
    know. *)
Definition demo_layout_unknown : BIDSLayout :=
  {| root_name := "ds";
     entities := {[ "task" := ["rest"; "nback"; "single"] ]};
     get_sessions := ["1"; "2"];
     get_subjects := ["01"] |}.

(** A loader whose runs have the labels of "rest" in another order, over
    three runs, one of them without event. *)
Definition demo_valss_shuffled : list (list string) :=
  [["go"]; []; ["stop"; "stop"; "go"]].

Definition demo_load_shuffled (layout : BIDSLayout) (task : string)
    (levels : list string) (scan_length : option Z) : result NodeIndex :=
  Ok {| nodes := map with_trial_type demo_valss_shuffled |}.

(** * Properties *)

(** ** The result monad *)

Lemma bind_Ok {A B} (f : A -> result B) (a : A) : (Ok a ≫= f) = f a.
Proof. reflexivity. Qed.

Lemma bind_Ok_inv {A B} (f : A -> result B) (m : result A) (b : B) :
  (m ≫= f) = Ok b -> exists a, m = Ok a /\ f a = Ok b.
Proof. destruct m as [a|e]; [eauto | discriminate]. Qed.

Lemma for_each_Ok {A B} (f : A -> result B) (g : A -> B) (xs : list A) :
  Forall (fun x => f x = Ok (g x)) xs -> for_each f xs = Ok (map g xs).
Proof.
  induction 1 as [|x xs Hx _ IH]; simpl; [done|].
  by rewrite Hx, bind_Ok, IH.
Qed.

(** ** [np.unique] *)

Lemma String_lt_le_trans (x y z : string) :
  String_lt x y -> String.le y z -> String_lt x z.
Proof.
  intros [Hxy Hnyx] Hyz. split; [by etrans|].
  intros Hzx. apply Hnyx. by etrans.
Qed.

Lemma keep_changes_elem (prev x : string) (ar : list string) :
  x ∈ prev :: keep_changes prev ar <-> x ∈ prev :: ar.
Proof.
  revert prev. induction ar as [|y ar IH]; intros prev; simpl; [done|].
  destruct (decide (y = prev)) as [->|Hne].
  - rewrite IH, !elem_of_cons. tauto.
  - rewrite (elem_of_cons (y :: _)), IH, !elem_of_cons. tauto.
Qed.

Lemma keep_changes_sorted (prev : string) (ar : list string) :
  StronglySorted String.le (prev :: ar) ->
  StronglySorted String_lt (prev :: keep_changes prev ar).
Proof.
  revert prev. induction ar as [|y ar IH]; intros prev Hs; simpl.
  { repeat constructor. }
  apply StronglySorted_inv in Hs as [Hs Hall].
  apply Forall_cons in Hall as [Hpy Hall].
  destruct (decide (y = prev)) as [->|Hne].
  { by apply IH. }
  assert (Hlt : String_lt prev y).
  { split; [done|]. intros Hyp. apply Hne. by apply (anti_symm String.le). }
  constructor; [by apply IH|].
  apply Forall_forall. intros z Hz.
  apply (proj1 (keep_changes_elem _ _ _)) in Hz.
  apply StronglySorted_inv in Hs as [_ Hy].
  apply elem_of_cons in Hz as [->|Hz]; [done|].
  apply String_lt_le_trans with y; [done|].
  rewrite Forall_forall in Hy. by apply Hy.
Qed.

Lemma np_unique_sorted (ar : list string) :
  StronglySorted String_lt (np_unique ar).
Proof.
  unfold np_unique.
  pose proof (StronglySorted_merge_sort String.le ar) as Hs.
  destruct (merge_sort String.le ar) as [|x l]; [constructor|].
  by apply keep_changes_sorted.
Qed.

Lemma np_unique_elem (ar : list string) (x : string) :
  x ∈ np_unique ar <-> x ∈ ar.
Proof.
  unfold np_unique.
  rewrite <- (merge_sort_Permutation String.le ar) at 2.
  destruct (merge_sort String.le ar) as [|y l]; [done|].
  apply keep_changes_elem.
Qed.

Lemma StronglySorted_lt_NoDup (l : list string) :
  StronglySorted String_lt l -> NoDup l.
Proof.
  induction 1 as [|x l _ IH Hall]; constructor; [|done].
  intros Hx. eapply Forall_forall in Hall; [|done].
  by destruct Hall as [Hle Hn].
Qed.

Lemma np_unique_NoDup (ar : list string) : NoDup (np_unique ar).
Proof. apply StronglySorted_lt_NoDup, np_unique_sorted. Qed.

Lemma np_unique_nil : np_unique [] = [].
Proof. reflexivity. Qed.

(** ** Weights of the one-vs-rest contrasts *)

Lemma zip_with_ones_mask (v : number) (tt : string) (l : list string) :
  zip_with (fun w (b : bool) => if b then v else w)
    (np_ones (length l)) (np_ne l tt)
  = map (fun x => if bool_decide (x ≠ tt) then v else PyFloat 1) l.
Proof.
  unfold np_ones, np_ne. induction l as [|x l IH]; simpl; [done|].
  by rewrite IH.
Qed.

Lemma contrast_weights_many (trial_types : list string) (tt : string) :
  length trial_types ≠ 1%nat ->
  contrast_weights trial_types tt
  = Ok (masked_weights (length trial_types) trial_types tt).
Proof.
  intros Hk. unfold contrast_weights, truediv, setitem_mask.
  destruct (decide (Z.of_nat (length trial_types) - 1 = 0)) as [H0|_]; [lia|].
  cbn [mbind result_bind].
  destruct (decide (length (np_ne trial_types tt)
                    = length (np_ones (length trial_types)))) as [_|Hlen].
  - by rewrite zip_with_ones_mask.
  - exfalso. apply Hlen. unfold np_ne, np_ones.
    by rewrite length_map, length_replicate.
Qed.

Lemma contrast_weights_single (t tt : string) :
  contrast_weights [t] tt = Ok [PyFloat 1].
Proof. reflexivity. Qed.





(** ** Closed forms of the blocks *)

Lemma contrast_weights_Ok (trial_types : list string) (tt : string) :
  contrast_weights trial_types tt = Ok (ovr_weights trial_types tt).
Proof.
  unfold ovr_weights. destruct (decide _) as [H1|Hn1].
  - destruct trial_types as [|t [|]]; try discriminate. reflexivity.
  - by apply contrast_weights_many.
Qed.

Lemma ovr_weights_length (trial_types : list string) (tt : string) :
  length (ovr_weights trial_types tt) = length trial_types.
Proof.
  unfold ovr_weights, masked_weights. destruct (decide _) as [->|_]; [done|].
  apply length_map.
Qed.

Lemma run_contrast_Ok (trial_types : list string) (tt : string) :
  run_contrast trial_types (factors trial_types) tt
  = Ok (ovr_contrast trial_types tt).
Proof.
  unfold run_contrast. by rewrite contrast_weights_Ok.
Qed.

Lemma run_block_false (trial_types : list string) :
  run_block false trial_types = Ok (run_base (factors trial_types)).
Proof. reflexivity. Qed.

Lemma run_block_true (trial_types : list string) :
  run_block true trial_types
  = Ok (set_Contrasts (run_base (factors trial_types))
          (map (ovr_contrast trial_types) trial_types)).
Proof.
  unfold run_block. fold (factors trial_types).
  rewrite (for_each_Ok _ (ovr_contrast trial_types)); [done|].
  apply Forall_forall. intros tt _. apply run_contrast_Ok.
Qed.

Lemma make_passthrough_Session (names : list string) (model_type : string) :
  _make_passthrough_contrast "Session" names model_type default_test
  = Ok (passthrough "Session" "session" ["session"; "contrast"]
          model_type names).
Proof. reflexivity. Qed.

Lemma make_passthrough_Subject (names : list string) (model_type : string) :
  _make_passthrough_contrast "Subject" names model_type default_test
  = Ok (passthrough "Subject" "subject" ["subject"; "contrast"]
          model_type names).
Proof. reflexivity. Qed.

Lemma make_passthrough_Dataset (names : list string) (model_type : string) :
  _make_passthrough_contrast "Dataset" names model_type default_test
  = Ok (passthrough "Dataset" "dataset" ["contrast"] model_type names).
Proof. reflexivity. Qed.

Lemma make_passthrough_KeyError (level : string) (names : list string)
    (model_type test : string) :
  gb_dict !! level = None ->
  _make_passthrough_contrast level names model_type test
  = Raise (KeyError level).
Proof.
  intros H. unfold _make_passthrough_contrast, getitem. by rewrite H.
Qed.

Lemma passthrough_names (level prefix : string) (gb : list string)
    (model_type : string) (names : list string) :
  Node.Contrasts (passthrough level prefix gb model_type names)
  = Some (map (dummy_contrast prefix) names).
Proof. reflexivity. Qed.

(** ** The aggregation chain *)

Lemma dummy_contrast_names (prefix : string) (names : list string) :
  map Contrast.Name (map (dummy_contrast prefix) names) = inherit prefix names.
Proof. unfold inherit. by rewrite map_map. Qed.

Lemma last_contrast_names_snoc (nodes : list Node.t) (blk : Node.t)
    (ccs : list Contrast.t) :
  Node.Contrasts blk = Some ccs ->
  last_contrast_names (nodes ++ [blk]) = Ok (map Contrast.Name ccs).
Proof.
  intros H. unfold last_contrast_names. by rewrite last_snoc, H.
Qed.

Lemma append_Session (nodes : list Node.t) (blk : Node.t)
    (ccs : list Contrast.t) :
  Node.Contrasts blk = Some ccs ->
  append_passthrough (nodes ++ [blk]) "Session" "meta"
  = Ok ((nodes ++ [blk]) ++ [Session_block (map Contrast.Name ccs)]).
Proof.
  intros H. unfold append_passthrough.
  by rewrite (last_contrast_names_snoc _ _ _ H), bind_Ok,
    make_passthrough_Session.
Qed.

Lemma append_Subject (nodes : list Node.t) (blk : Node.t)
    (ccs : list Contrast.t) :
  Node.Contrasts blk = Some ccs ->
  append_passthrough (nodes ++ [blk]) "Subject" "meta"
  = Ok ((nodes ++ [blk]) ++ [Subject_block (map Contrast.Name ccs)]).
Proof.
  intros H. unfold append_passthrough.
  by rewrite (last_contrast_names_snoc _ _ _ H), bind_Ok,
    make_passthrough_Subject.
Qed.

Lemma append_Dataset (nodes : list Node.t) (blk : Node.t)
    (ccs : list Contrast.t) :
  Node.Contrasts blk = Some ccs ->
  append_passthrough (nodes ++ [blk]) "Dataset" default_model_type
  = Ok ((nodes ++ [blk]) ++ [Dataset_block (map Contrast.Name ccs)]).
Proof.
  intros H. unfold append_passthrough.
  by rewrite (last_contrast_names_snoc _ _ _ H), bind_Ok,
    make_passthrough_Dataset.
Qed.

(** Rewrite with an instance of an [append_*] lemma, its list in normal
    form. *)
Ltac append_step L :=
  let E := fresh "E" in
  pose proof L as E; cbn [app] in E;
  unfold Session_block, Subject_block, Dataset_block in E |- *;
  rewrite E; clear E.

Lemma aggregate_Ok (layout : BIDSLayout) (run : Node.t)
    (ccs : list Contrast.t) :
  Node.Contrasts run = Some ccs ->
  aggregate layout [run]
  = Ok (run :: upper (bool_decide (1 < length (get_sessions layout))%nat)
                     (bool_decide (1 < length (get_subjects layout))%nat)
                     (map Contrast.Name ccs)).
Proof.
  intros H. unfold aggregate.
  destruct (bool_decide (1 < length (get_sessions layout))%nat);
    destruct (bool_decide (1 < length (get_subjects layout))%nat);
    cbn [upper].
  - append_step (append_Session [] run ccs H). rewrite bind_Ok.
    append_step (append_Subject [run] _ _ (passthrough_names
      "Session" "session" ["session"; "contrast"] "meta"
      (map Contrast.Name ccs))).
    rewrite bind_Ok.
    append_step (append_Dataset [run; Session_block (map Contrast.Name ccs)]
      _ _ (passthrough_names "Subject" "subject" ["subject"; "contrast"]
             "meta" (map Contrast.Name
                       (map (dummy_contrast "session")
                          (map Contrast.Name ccs))))).
    by rewrite !dummy_contrast_names.
  - append_step (append_Session [] run ccs H). rewrite !bind_Ok.
    append_step (append_Dataset [run] _ _ (passthrough_names
      "Session" "session" ["session"; "contrast"] "meta"
      (map Contrast.Name ccs))).
    by rewrite !dummy_contrast_names.
  - rewrite bind_Ok. append_step (append_Subject [] run ccs H).
    rewrite bind_Ok.
    append_step (append_Dataset [run] _ _ (passthrough_names
      "Subject" "subject" ["subject"; "contrast"] "meta"
      (map Contrast.Name ccs))).
    by rewrite !dummy_contrast_names.
  - rewrite !bind_Ok. by append_step (append_Dataset [] run ccs H).
Qed.

Lemma aggregate_set_Contrasts (layout : BIDSLayout) (blk : Node.t)
    (ccs : list Contrast.t) :
  aggregate layout [set_Contrasts blk ccs]
  = Ok (set_Contrasts blk ccs
        :: upper (bool_decide (1 < length (get_sessions layout))%nat)
             (bool_decide (1 < length (get_subjects layout))%nat)
             (map Contrast.Name ccs)).
Proof. by apply aggregate_Ok. Qed.

(** ** Trial-type discovery *)

Lemma collect_evs_Ok (ns : list RunNode) (valss : list (list string)) :
  Forall2 (fun n vals => variables n !! "trial_type" = Some vals) ns valss ->
  collect_evs ns = Ok (concat valss).
Proof.
  induction 1 as [|n vals ns valss Hn _ IH]; simpl; [done|].
  unfold getitem. by rewrite Hn, bind_Ok, IH.
Qed.

Lemma collect_evs_KeyError (ns : list RunNode) :
  Exists (fun n => variables n !! "trial_type" = None) ns ->
  collect_evs ns = Raise (KeyError "trial_type").
Proof.
  induction 1 as [n ns Hn | n ns _ IH]; simpl; unfold getitem.
  - by rewrite Hn.
  - destruct (variables n !! "trial_type"); [|done].
    by rewrite bind_Ok, IH.
Qed.

Lemma collect_evs_skip_empty (ns1 ns2 : list RunNode) (n : RunNode) :
  variables n !! "trial_type" = Some [] ->
  collect_evs (ns1 ++ n :: ns2) = collect_evs (ns1 ++ ns2).
Proof.
  intros Hn. induction ns1 as [|n1 ns1 IH]; simpl.
  - unfold getitem. rewrite Hn, bind_Ok.
    by destruct (collect_evs ns2).
  - by rewrite IH.
Qed.

Lemma String_lt_compare (x y : string) :
  String_lt x y -> String.compare x y = Lt.
Proof.
  intros [_ Hn]. unfold String.le, String.leb in Hn.
  rewrite String.compare_antisym in Hn.
  destruct (String.compare x y); simpl in Hn; [| done |]; by destruct Hn.
Qed.

Lemma np_unique_lexicographic (ar : list string) :
  StronglySorted (fun x y => String.compare x y = Lt) (np_unique ar).
Proof.
  pose proof (np_unique_sorted ar) as Hs.
  induction Hs as [|x l _ IH Hall]; constructor; [done|].
  eapply Forall_impl; [exact Hall|]. intros y. apply String_lt_compare.
Qed.

(** ** Lengths of weights and condition lists *)

Lemma ovr_contrast_lengths (trial_types : list string) :
  Forall lengths_agree (map (ovr_contrast trial_types) trial_types).
Proof.
  apply Forall_forall. intros c Hc.
  apply list_elem_of_fmap in Hc as (tt & -> & _).
  unfold lengths_agree, ovr_contrast, factors. cbn.
  by rewrite ovr_weights_length, length_map.
Qed.

Lemma passthrough_lengths (level prefix : string) (gb : list string)
    (model_type : string) (names : list string) (ccs : list Contrast.t) :
  Node.Contrasts (passthrough level prefix gb model_type names) = Some ccs ->
  Forall lengths_agree ccs.
Proof.
  intros [= <-]. apply Forall_forall. intros c Hc.
  by apply list_elem_of_fmap in Hc as (cn & -> & _).
Qed.

Lemma upper_lengths (multi_session multi_subject : bool)
    (names : list string) :
  Forall (fun blk => forall ccs, Node.Contrasts blk = Some ccs ->
                     Forall lengths_agree ccs)
    (upper multi_session multi_subject names).
Proof.
  destruct multi_session, multi_subject; cbn [upper];
    repeat constructor; intros ccs; apply passthrough_lengths.
Qed.

Lemma make_passthrough_levels (level prefix : string) (gb : list string)
    (names : list string) (model_type : string) :
  (level, prefix, gb) ∈ passthrough_levels ->
  lower level = prefix
  /\ _make_passthrough_contrast level names model_type default_test
     = Ok (passthrough level prefix gb model_type names).
Proof.
  unfold passthrough_levels. rewrite !elem_of_cons, elem_of_nil.
  intros [[= -> -> ->] | [[= -> -> ->] | [[= -> -> ->] | []]]];
    split; reflexivity.
Qed.

Lemma upper_inherits (multi_session multi_subject : bool) (run : Node.t)
    (ccs : list Contrast.t) (i : nat) (prev blk : Node.t) :
  Node.Contrasts run = Some ccs ->
  (run :: upper multi_session multi_subject (map Contrast.Name ccs)) !! i
    = Some prev ->
  (run :: upper multi_session multi_subject (map Contrast.Name ccs)) !! S i
    = Some blk ->
  exists inherited level prefix gb model_type,
    Node.Contrasts prev = Some inherited
    /\ (level, prefix, gb) ∈ passthrough_levels
    /\ blk = passthrough level prefix gb model_type
               (map Contrast.Name inherited).
Proof.
  intros Hrun Hi HSi.
  destruct multi_session, multi_subject; cbn [upper] in Hi, HSi;
    repeat (destruct i as [|i]; simplify_eq/=);
    eexists _, _, _, _, _;
    (split; [first [exact Hrun | reflexivity]|]);
    rewrite ?dummy_contrast_names;
    (split; [|reflexivity]);
    unfold passthrough_levels; rewrite !elem_of_cons; auto.
Qed.

(** ** One task *)

Section task.

Variable load_variables :
  BIDSLayout -> string -> list string -> option Z -> result NodeIndex.
Variables (layout : BIDSLayout) (scan_length : option Z).
Variables (base_name task_name : string).

(** The run nodes the loader returns for the task, and the values of the
    [trial_type] variable of each. *)
Variables (run_nodes : NodeIndex) (valss : list (list string)).
Hypothesis Hload :
  load_variables layout task_name ["run"] scan_length = Ok run_nodes.
Hypothesis Hvars :
  Forall2 (fun n vals => variables n !! "trial_type" = Some vals)
    (nodes run_nodes) valss.

Let trial_types : list string := np_unique (concat valss).

Lemma task_model_false :
  task_model load_variables layout scan_length false base_name task_name
  = Ok (TaskModel.mk (base_name +:+ "_" +:+ task_name)
          ("Autogenerated model for the " +:+ task_name +:+ " task from "
             +:+ base_name)
          "1.0.0" {[ "task" := [task_name] ]}
          [run_base (factors trial_types)]).
Proof.
  unfold task_model.
  by rewrite Hload, bind_Ok, (collect_evs_Ok _ _ Hvars), bind_Ok,
    run_block_false.
Qed.

Lemma task_model_true :
  task_model load_variables layout scan_length true base_name task_name
  = Ok (TaskModel.mk (base_name +:+ "_" +:+ task_name)
          ("Autogenerated model for the " +:+ task_name +:+ " task from "
             +:+ base_name)
          "1.0.0" {[ "task" := [task_name] ]}
          (set_Contrasts (run_base (factors trial_types))
             (map (ovr_contrast trial_types) trial_types)
           :: upper (bool_decide (1 < length (get_sessions layout))%nat)
                (bool_decide (1 < length (get_subjects layout))%nat)
                (map Contrast.Name
                   (map (ovr_contrast trial_types) trial_types)))).
Proof.
  subst trial_types. unfold task_model.
  rewrite Hload, bind_Ok, (collect_evs_Ok _ _ Hvars), bind_Ok,
    run_block_true, bind_Ok.
  cbv beta iota zeta.
  by rewrite aggregate_set_Contrasts.
Qed.

(** *** Run level contrasts *)


(** C3. With exactly one discovered trial type and [one_vs_rest=True] the
    division raises [ZeroDivisionError], which is caught where it is
    raised: the model is returned, and its single run contrast is named
    [run_<tt>], without suffix, with the weights [np.ones] made. *)
Theorem single_trial_type_contrast (tt : string) :
  trial_types = [tt] ->
  truediv (-1) (Z.of_nat (length trial_types) - 1) = Raise ZeroDivisionError
  /\ contrast_weights trial_types tt = Ok [PyFloat 1]
  /\ exists m run rest,
      task_model load_variables layout scan_length true base_name task_name
        = Ok m
      /\ TaskModel.Nodes m = run :: rest
      /\ Node.Level run = "Run"
      /\ Node.Contrasts run
         = Some [Contrast.mk ("run_" +:+ tt) ["trial_type." +:+ tt]
                   [PyFloat 1] "t"].
Proof.
  intros Htt. split; [by rewrite Htt|]. split; [by rewrite Htt|].
  eexists _, _, _. split; [apply task_model_true|].
  split; [reflexivity|]. split; [reflexivity|].
  fold trial_types. by rewrite Htt.
Qed.

(** C10. With no discovered trial type and [one_vs_rest=True] the run
    block still has the key Contrasts, with an empty list, and the last
    block is the Dataset block, with an empty X and no contrast. *)
Theorem no_trial_types :
  trial_types = [] ->
  exists m run mid dataset,
    task_model load_variables layout scan_length true base_name task_name
      = Ok m
    /\ TaskModel.Nodes m = run :: mid ++ [dataset]
    /\ Node.Level run = "Run"
    /\ Node.Contrasts run = Some []
    /\ Node.Level dataset = "Dataset"
    /\ Model.X (Node.Model dataset) = []
    /\ Node.Contrasts dataset = Some [].
Proof.
  intros Htt. rewrite task_model_true. fold trial_types. rewrite Htt.
  cbn [map].
  destruct (bool_decide (1 < length (get_sessions layout))%nat);
    destruct (bool_decide (1 < length (get_subjects layout))%nat);
    unfold upper, inherit; cbn [map]; eexists _, _.
  - exists [Session_block []; Subject_block []], (Dataset_block []).
    repeat (split; [reflexivity|]). reflexivity.
  - exists [Session_block []], (Dataset_block []).
    repeat (split; [reflexivity|]). reflexivity.
  - exists [Subject_block []], (Dataset_block []).
    repeat (split; [reflexivity|]). reflexivity.
  - exists [], (Dataset_block []).
    repeat (split; [reflexivity|]). reflexivity.
Qed.

(** *** The blocks above the run level *)

(** C2. With [one_vs_rest=True] the run block is followed by a Session
    block exactly when there is more than one session, then by a Subject
    block exactly when there is more than one subject, whatever the
    sessions are, and last by a Dataset block, which inherits the names of
    the contrasts of the block just before it. *)
Theorem aggregation_chain :
  exists m run mid dataset prev inherited,
    task_model load_variables layout scan_length true base_name task_name
      = Ok m
    /\ TaskModel.Nodes m = run :: mid ++ [dataset]
    /\ Node.Level run = "Run"
    /\ map Node.Level mid
       = (if bool_decide (1 < length (get_sessions layout))%nat
          then ["Session"] else [])
         ++ (if bool_decide (1 < length (get_subjects layout))%nat
             then ["Subject"] else [])
    /\ Node.Level dataset = "Dataset"
    /\ last (run :: mid) = Some prev
    /\ Node.Contrasts prev = Some inherited
    /\ Model.X (Node.Model dataset) = map Contrast.Name inherited
    /\ Node.Contrasts dataset
       = Some (map (fun cc =>
                 Contrast.mk ("dataset_" +:+ Contrast.Name cc)
                   [Contrast.Name cc] [PyInt 1] "t") inherited).
Proof.
  rewrite task_model_true.
  set (run := set_Contrasts _ _).
  set (names := map Contrast.Name _).
  destruct (bool_decide (1 < length (get_sessions layout))%nat);
    destruct (bool_decide (1 < length (get_subjects layout))%nat);
    cbn [upper].
  - eexists _; exists run, [Session_block names; Subject_block (inherit "session" names)],
      (Dataset_block (inherit "subject" (inherit "session" names))),
      (Subject_block (inherit "session" names)),
      (map (dummy_contrast "subject") (inherit "session" names)).
    repeat (split; [reflexivity|]).
    rewrite dummy_contrast_names. split; [reflexivity|].
    cbn. unfold inherit. by rewrite !map_map.
  - eexists _; exists run, [Session_block names],
      (Dataset_block (inherit "session" names)),
      (Session_block names), (map (dummy_contrast "session") names).
    repeat (split; [reflexivity|]).
    rewrite dummy_contrast_names. split; [reflexivity|].
    cbn. unfold inherit. by rewrite !map_map.
  - eexists _; exists run, [Subject_block names],
      (Dataset_block (inherit "subject" names)),
      (Subject_block names), (map (dummy_contrast "subject") names).
    repeat (split; [reflexivity|]).
    rewrite dummy_contrast_names. split; [reflexivity|].
    cbn. unfold inherit. by rewrite !map_map.
  - eexists _; exists run, [], (Dataset_block names), run,
      (map (ovr_contrast trial_types) trial_types).
    repeat (split; [reflexivity|]).
    cbn. subst names. by rewrite !map_map.
Qed.

(** C4. The discovered labels are the values of [trial_type] of all run
    nodes, without duplicates and in increasing lexicographic order; the
    run model's X, its HRF Variables and the condition list of every run
    contrast are the one list [trial_type.<label>] over the labels in that
    order. *)
Theorem factors_sorted_unique (one_vs_rest : bool) :
  exists m run rest hrf,
    task_model load_variables layout scan_length one_vs_rest
      base_name task_name = Ok m
    /\ TaskModel.Nodes m = run :: rest
    /\ Node.Level run = "Run"
    /\ (forall label, label ∈ trial_types <-> label ∈ concat valss)
    /\ NoDup trial_types
    /\ StronglySorted (fun x y => String.compare x y = Lt) trial_types
    /\ Model.X (Node.Model run)
       = map (fun label => "trial_type." +:+ label) trial_types
    /\ Model.HRF (Node.Model run) = Some hrf
    /\ HRF.Variables hrf = Model.X (Node.Model run)
    /\ forall ccs, Node.Contrasts run = Some ccs ->
         Forall (fun c => Contrast.ConditionList c = Model.X (Node.Model run))
           ccs.
Proof.
  assert (Hfacts :
    (forall label, label ∈ trial_types <-> label ∈ concat valss)
    /\ NoDup trial_types
    /\ StronglySorted (fun x y => String.compare x y = Lt) trial_types).
  { split; [apply np_unique_elem|].
    split; [apply np_unique_NoDup | apply np_unique_lexicographic]. }
  destruct Hfacts as (? & ? & ?).
  destruct one_vs_rest; eexists _, _, _, _.
  - split; [apply task_model_true|].
    repeat (split; [first [reflexivity | assumption]|]).
    intros ccs [= <-]. apply Forall_forall. intros c Hc.
    by apply list_elem_of_fmap in Hc as (tt & -> & _).
  - split; [apply task_model_false|].
    repeat (split; [first [reflexivity | assumption]|]).
    intros ccs [=].
Qed.

(** C5. In every contrast of every block of the model, run level or
    passthrough, there are as many weights as conditions. *)
Theorem weights_match_conditions (one_vs_rest : bool) :
  exists m,
    task_model load_variables layout scan_length one_vs_rest
      base_name task_name = Ok m
    /\ Forall (fun blk => forall ccs, Node.Contrasts blk = Some ccs ->
         Forall (fun c => length (Contrast.Weights c)
                          = length (Contrast.ConditionList c)) ccs)
         (TaskModel.Nodes m).
Proof.
  destruct one_vs_rest; eexists.
  - split; [apply task_model_true|]. cbn [TaskModel.Nodes].
    constructor; [|apply upper_lengths].
    intros ccs [= <-]. apply ovr_contrast_lengths.
  - split; [apply task_model_false|]. cbn [TaskModel.Nodes].
    constructor; [|constructor]. intros ccs [=].
Qed.

(** C7. With [one_vs_rest=True] every block after the run block is a
    Session or a Subject block with model type "meta", or a Dataset block
    with model type "glm"; the last block is the Dataset block. *)
Theorem passthrough_model_types :
  exists m run rest dataset,
    task_model load_variables layout scan_length true base_name task_name
      = Ok m
    /\ TaskModel.Nodes m = run :: rest
    /\ Node.Level run = "Run"
    /\ Forall (fun blk =>
         (Node.Level blk = "Session" \/ Node.Level blk = "Subject" ->
          Model.Type_ (Node.Model blk) = "meta")
         /\ (Node.Level blk = "Dataset" ->
             Model.Type_ (Node.Model blk) = "glm")
         /\ Node.Level blk ∈ ["Session"; "Subject"; "Dataset"]) rest
    /\ last rest = Some dataset
    /\ Node.Level dataset = "Dataset"
    /\ Model.Type_ (Node.Model dataset) = "glm".
Proof.
  rewrite task_model_true.
  destruct (bool_decide (1 < length (get_sessions layout))%nat);
    destruct (bool_decide (1 < length (get_subjects layout))%nat);
    cbn [upper]; eexists _, _, _, _;
    (split; [reflexivity|]); (split; [reflexivity|]);
    (split; [reflexivity|]);
    (split; [|by repeat (split; [reflexivity|])]);
    repeat constructor; cbn; try done; try (intros [|]; done);
    set_solver.
Qed.

(** C6. Called on one of the three levels, [_make_passthrough_contrast]
    returns a block whose GroupBy is the one of the level and which has,
    for each inherited name [cn] and in their order, the contrast named
    [<level in lower case>_<cn>] with ConditionList [[cn]], Weights [[1]]
    and Test "t". In a model built with [one_vs_rest=True], every block
    after the first is such a block, made of the names of the contrasts
    of the block before it. *)
Theorem passthrough_blocks :
  (forall level prefix gb names model_type,
     (level, prefix, gb) ∈
       [("Session", "session", ["session"; "contrast"]);
        ("Subject", "subject", ["subject"; "contrast"]);
        ("Dataset", "dataset", ["contrast"])] ->
     lower level = prefix
     /\ _make_passthrough_contrast level names model_type default_test
        = Ok (Node.mk level level gb None (Model.mk model_type names None)
                (Some (map (fun cn =>
                         Contrast.mk (prefix +:+ "_" +:+ cn) [cn] [PyInt 1] "t")
                       names))))
  /\ exists m,
      task_model load_variables layout scan_length true base_name task_name
        = Ok m
      /\ forall i prev blk,
           TaskModel.Nodes m !! i = Some prev ->
           TaskModel.Nodes m !! S i = Some blk ->
           exists inherited level prefix gb,
             Node.Contrasts prev = Some inherited
             /\ (level, prefix, gb) ∈
                  [("Session", "session", ["session"; "contrast"]);
                   ("Subject", "subject", ["subject"; "contrast"]);
                   ("Dataset", "dataset", ["contrast"])]
             /\ Node.Level blk = level
             /\ Node.GroupBy blk = gb
             /\ Model.X (Node.Model blk) = map Contrast.Name inherited
             /\ Node.Contrasts blk
                = Some (map (fun cn =>
                          Contrast.mk (prefix +:+ "_" +:+ cn) [cn]
                            [PyInt 1] "t")
                        (map Contrast.Name inherited)).
Proof.
  split.
  { intros level prefix gb names model_type Hl.
    apply (make_passthrough_levels _ _ _ names model_type Hl). }
  eexists. split; [apply task_model_true|].
  cbn [TaskModel.Nodes]. intros i prev blk Hi HSi.
  destruct (upper_inherits _ _
              (set_Contrasts (run_base (factors trial_types))
                 (map (ovr_contrast trial_types) trial_types))
              (map (ovr_contrast trial_types) trial_types)
              i prev blk eq_refl Hi HSi)
    as (inherited & level & prefix & gb & model_type & Hprev & Hl & ->).
  exists inherited, level, prefix, gb.
  by repeat (split; [first [assumption | reflexivity]|]).
Qed.

End task.

(** ** The whole dataset *)

Lemma for_each_Ok_inv {A B} (f : A -> result B) (xs : list A) (ys : list B) :
  for_each f xs = Ok ys -> Forall2 (fun x y => f x = Ok y) xs ys.
Proof.
  revert ys. induction xs as [|x xs IH]; intros ys; simpl.
  - intros [= <-]. constructor.
  - intros H. apply bind_Ok_inv in H as (y & Hy & H).
    apply bind_Ok_inv in H as (ys' & Hys & [= <-]).
    constructor; [done | by apply IH].
Qed.

Section dataset.

Variable load_variables :
  BIDSLayout -> string -> list string -> option Z -> result NodeIndex.
Variables (layout : BIDSLayout) (scan_length : option Z).

Lemma task_model_false_inv (base_name task_name : string) (m : TaskModel.t) :
  task_model load_variables layout scan_length false base_name task_name
    = Ok m ->
  exists evs, TaskModel.Nodes m = [run_base (factors (np_unique evs))].
Proof.
  unfold task_model. intros H.
  apply bind_Ok_inv in H as (run_nodes & _ & H).
  apply bind_Ok_inv in H as (evs & _ & H).
  rewrite run_block_false, !bind_Ok in H. injection H as <-.
  by exists evs.
Qed.

(** C8. With [one_vs_rest=False] every model that [auto_model] returns
    has exactly one block, the run block, and this block has no key
    Contrasts. There is one such model for each task when the variables of
    every task load and have a [trial_type]. *)
Theorem run_block_only_without_one_vs_rest :
  (forall models,
     auto_model load_variables layout scan_length false = Ok models ->
     Forall (fun m => exists run,
               TaskModel.Nodes m = [run]
               /\ Node.Level run = "Run"
               /\ Node.Contrasts run = None) models)
  /\ (forall tasks,
       entities layout !! "task" = Some tasks ->
       Forall (loadable load_variables layout scan_length) tasks ->
       exists models,
         auto_model load_variables layout scan_length false = Ok models
         /\ length models = length tasks).
Proof.
  split.
  - intros models H. unfold auto_model in H.
    apply bind_Ok_inv in H as (tasks & _ & H).
    apply for_each_Ok_inv in H.
    induction H as [|task m tasks models Hm _ IH]; constructor; [|done].
    apply task_model_false_inv in Hm as (evs & Hm).
    by eexists.
  - intros tasks Htasks Hall. unfold auto_model, getitem.
    rewrite Htasks, bind_Ok.
    clear Htasks. induction Hall as [|task tasks Htask _ IH].
    + by exists [].
    + destruct Htask as (run_nodes & valss & Hload & Hvars).
      destruct IH as (models & Hmodels & Hlen).
      eexists (_ :: models). split; [|by rewrite !length_cons, Hlen].
      cbn [for_each].
      by rewrite (task_model_false load_variables layout scan_length
                    (root_name layout) task run_nodes valss Hload Hvars),
        bind_Ok, Hmodels.
Qed.

(** C9, as the code has it. A run node whose [trial_type] variable has
    no value adds no label. A run node without a [trial_type] variable
    makes the lookup [n.variables['trial_type']] raise [KeyError], which
    [auto_model] does not catch: no model is returned for the task. *)
Theorem missing_trial_type_raises (one_vs_rest : bool)
    (base_name task_name : string) (run_nodes : NodeIndex) :
  load_variables layout task_name ["run"] scan_length = Ok run_nodes ->
  (Exists (fun n => variables n !! "trial_type" = None) (nodes run_nodes) ->
   task_model load_variables layout scan_length one_vs_rest
     base_name task_name = Raise (KeyError "trial_type"))
  /\ (forall ns1 n ns2,
        nodes run_nodes = ns1 ++ n :: ns2 ->
        variables n !! "trial_type" = Some [] ->
        collect_evs (nodes run_nodes) = collect_evs (ns1 ++ ns2)).
Proof.
  intros Hload. split.
  - intros Hex. unfold task_model.
    by rewrite Hload, bind_Ok, (collect_evs_KeyError _ Hex).
  - intros ns1 n ns2 -> Hn. by apply collect_evs_skip_empty.
Qed.

End dataset.

(** * The model on a dataset *)

Lemma demo_rest_loads :
  demo_load demo_layout "rest" ["run"] None
  = Ok {| nodes := map with_trial_type demo_valss |}.
Proof. reflexivity. Defined.

Lemma demo_rest_vars :
  Forall2 (fun n vals => variables n !! "trial_type" = Some vals)
    (map with_trial_type demo_valss) demo_valss.
Proof. repeat constructor. Defined.

Example demo_rest_trial_types : np_unique (concat demo_valss) = ["go"; "stop"].
Proof. reflexivity. Qed.

Example demo_rest_weights :
  (fun r => match r with
            | Ok [m; _] =>
                (fun blk => option_map (map Contrast.Weights)
                              (Node.Contrasts blk))
                  <$> TaskModel.Nodes m
            | _ => []
            end) (auto_model demo_load demo_layout None true)
  = [Some [[PyFloat 1; PyFloat (-1)]; [PyFloat (-1); PyFloat 1]];
     Some [[PyInt 1]; [PyInt 1]];
     Some [[PyInt 1]; [PyInt 1]]].
Proof. reflexivity. Qed.

(** With a single session and a single subject the blocks are the run
    block and the Dataset block. *)
Example demo_rest_single_session :
  (fun r => match r with
            | Ok m =>
                (fun blk => (Node.Level blk,
                             from_option (map Contrast.Name) []
                               (Node.Contrasts blk)))
                  <$> TaskModel.Nodes m
            | Raise _ => []
            end)
    (task_model demo_load
       {| root_name := "ds"; entities := {[ "task" := ["rest"] ]};
          get_sessions := ["1"]; get_subjects := ["01"] |}
       None true "ds" "rest")
  = [("Run", ["run_go_vs_others"; "run_stop_vs_others"]);
     ("Dataset", ["dataset_run_go_vs_others"; "dataset_run_stop_vs_others"])].
Proof. reflexivity. Qed.

Lemma demo_single_loads :
  demo_load demo_layout "single" ["run"] None
  = Ok {| nodes := [with_trial_type ["go"; "go"]] |}.
Proof. reflexivity. Defined.

Lemma demo_single_vars :
  Forall2 (fun n vals => variables n !! "trial_type" = Some vals)
    [with_trial_type ["go"; "go"]] [["go"; "go"]].
Proof. repeat constructor. Defined.

Lemma demo_empty_loads :
  demo_load demo_layout "empty" ["run"] None = Ok {| nodes := [] |}.
Proof. reflexivity. Defined.

Lemma demo_bare_loads :
  demo_load demo_layout "bare" ["run"] None
  = Ok {| nodes := [with_trial_type ["go"]; bare_node] |}.
Proof. reflexivity. Defined.

(** ** The theorems on the dataset *)


Lemma aggregation_chain_witness :
  exists m run mid dataset,
    task_model demo_load demo_layout None true "ds" "rest" = Ok m
    /\ TaskModel.Nodes m = run :: mid ++ [dataset]
    /\ map Node.Level mid = ["Session"]
    /\ Node.Level dataset = "Dataset".
Proof.
  destruct (aggregation_chain demo_load demo_layout None "ds" "rest"
              _ demo_valss demo_rest_loads demo_rest_vars)
    as (m & run & mid & dataset & prev & inherited
        & Hm & Hn & _ & Hmid & Hd & _).
  exists m, run, mid, dataset. repeat split; assumption.
Defined.

Lemma single_trial_type_contrast_witness :
  np_unique (concat [["go"; "go"]]) = ["go"]
  /\ exists m run rest,
       task_model demo_load demo_layout None true "ds" "single" = Ok m
       /\ TaskModel.Nodes m = run :: rest
       /\ Node.Contrasts run
          = Some [Contrast.mk "run_go" ["trial_type.go"] [PyFloat 1] "t"].
Proof.
  split; [reflexivity|].
  destruct (single_trial_type_contrast demo_load demo_layout None
              "ds" "single" _ [["go"; "go"]]
              demo_single_loads demo_single_vars "go" eq_refl)
    as (_ & _ & m & run & rest & Hm & Hn & _ & Hc).
  exists m, run, rest. repeat split; assumption.
Defined.

Lemma no_trial_types_witness :
  np_unique (concat []) = []
  /\ exists m run mid dataset,
       task_model demo_load demo_layout None true "ds" "empty" = Ok m
       /\ TaskModel.Nodes m = run :: mid ++ [dataset]
       /\ Node.Contrasts run = Some []
       /\ Node.Contrasts dataset = Some [].
Proof.
  split; [reflexivity|].
  destruct (no_trial_types demo_load demo_layout None "ds" "empty"
              _ [] demo_empty_loads (List.Forall2_nil _) eq_refl)
    as (m & run & mid & dataset & Hm & Hn & _ & Hc & _ & _ & Hd).
  exists m, run, mid, dataset. repeat split; assumption.
Defined.

Lemma factors_sorted_unique_witness :
  exists m run rest,
    task_model demo_load demo_layout None true "ds" "rest" = Ok m
    /\ TaskModel.Nodes m = run :: rest
    /\ Model.X (Node.Model run) = ["trial_type.go"; "trial_type.stop"].
Proof.
  destruct (factors_sorted_unique demo_load demo_layout None "ds" "rest"
              _ demo_valss demo_rest_loads demo_rest_vars true)
    as (m & run & rest & hrf & Hm & Hn & _ & _ & _ & _ & HX & _).
  exists m, run, rest. repeat split; assumption.
Defined.

Lemma weights_match_conditions_witness :
  exists m,
    task_model demo_load demo_layout None true "ds" "rest" = Ok m
    /\ Forall (fun blk => forall ccs, Node.Contrasts blk = Some ccs ->
         Forall (fun c => length (Contrast.Weights c)
                          = length (Contrast.ConditionList c)) ccs)
         (TaskModel.Nodes m).
Proof.
  exact (weights_match_conditions demo_load demo_layout None "ds" "rest"
           _ demo_valss demo_rest_loads demo_rest_vars true).
Defined.

Lemma passthrough_blocks_witness :
  exists m,
    task_model demo_load demo_layout None true "ds" "rest" = Ok m
    /\ forall i prev blk,
         TaskModel.Nodes m !! i = Some prev ->
         TaskModel.Nodes m !! S i = Some blk ->
         exists inherited,
           Node.Contrasts prev = Some inherited
           /\ Model.X (Node.Model blk) = map Contrast.Name inherited.
Proof.
  destruct (passthrough_blocks demo_load demo_layout None "ds" "rest"
              _ demo_valss demo_rest_loads demo_rest_vars)
    as (_ & m & Hm & Hblk).
  exists m. split; [exact Hm|]. intros i prev blk Hi HSi.
  destruct (Hblk i prev blk Hi HSi)
    as (inherited & level & prefix & gb & Hp & _ & _ & _ & HX & _).
  exists inherited. split; assumption.
Defined.

Lemma passthrough_model_types_witness :
  exists m run rest dataset,
    task_model demo_load demo_layout None true "ds" "rest" = Ok m
    /\ TaskModel.Nodes m = run :: rest
    /\ last rest = Some dataset
    /\ Model.Type_ (Node.Model dataset) = "glm".
Proof.
  destruct (passthrough_model_types demo_load demo_layout None "ds" "rest"
              _ demo_valss demo_rest_loads demo_rest_vars)
    as (m & run & rest & dataset & Hm & Hn & _ & _ & Hl & _ & Ht).
  exists m, run, rest, dataset. repeat split; assumption.
Defined.

Lemma demo_tasks_loadable :
  Forall (loadable demo_load demo_layout None) ["rest"; "single"].
Proof.
  constructor.
  - exists {| nodes := map with_trial_type demo_valss |}, demo_valss.
    split; [reflexivity | exact demo_rest_vars].
  - constructor; [|constructor].
    exists {| nodes := [with_trial_type ["go"; "go"]] |}, [["go"; "go"]].
    split; [reflexivity | exact demo_single_vars].
Defined.

Lemma run_block_only_without_one_vs_rest_witness :
  exists models,
    auto_model demo_load demo_layout None false = Ok models
    /\ length models = 2%nat
    /\ Forall (fun m => exists run,
                 TaskModel.Nodes m = [run]
                 /\ Node.Level run = "Run"
                 /\ Node.Contrasts run = None) models.
Proof.
  destruct (proj2 (run_block_only_without_one_vs_rest
                     demo_load demo_layout None)
              ["rest"; "single"] eq_refl demo_tasks_loadable)
    as (models & Hm & Hlen).
  exists models. split; [exact Hm|]. split; [exact Hlen|].
  exact (proj1 (run_block_only_without_one_vs_rest
                  demo_load demo_layout None) models Hm).
Defined.

Lemma missing_trial_type_raises_witness :
  Exists (fun n => variables n !! "trial_type" = None)
    [with_trial_type ["go"]; bare_node]
  /\ task_model demo_load demo_layout None true "ds" "bare"
     = Raise (KeyError "trial_type").
Proof.
  assert (Hex : Exists (fun n => variables n !! "trial_type" = None)
                  [with_trial_type ["go"]; bare_node]).
  { apply Exists_cons_tl, Exists_cons_hd. reflexivity. }
  split; [exact Hex|].
  exact (proj1 (missing_trial_type_raises demo_load demo_layout None true
                  "ds" "bare" _ demo_bare_loads) Hex).
Defined.

(** C9, as the specification words it: a run node without a [trial_type]
    variable would add no label and raise nothing. Here the second run
    node has no such variable: the labels of the first are lost and
    [KeyError] is raised, out of [auto_model] as well. *)
Lemma missing_trial_type_counterexample :
  variables bare_node !! "trial_type" = None
  /\ collect_evs ([with_trial_type ["go"]] ++ [bare_node])
     = Raise (KeyError "trial_type")
  /\ collect_evs [with_trial_type ["go"]] = Ok ["go"]
  /\ auto_model demo_load
       {| root_name := "ds"; entities := {[ "task" := ["bare"] ]};
          get_sessions := ["1"]; get_subjects := ["01"] |} None false
     = Raise (KeyError "trial_type").
Proof. repeat split; reflexivity. Qed.

(** * Further properties of the two functions *)

(** ** Loops that raise *)

Lemma for_each_Raise_first {A B} (f : A -> result B) (pre post : list A)
    (x : A) (e : exn) :
  Forall (fun y => exists b, f y = Ok b) pre ->
  f x = Raise e ->
  for_each f (pre ++ x :: post) = Raise e.
Proof.
  intros Hpre Hx. induction Hpre as [|y pre [b Hy] _ IH]; simpl.
  - by rewrite Hx.
  - by rewrite Hy, bind_Ok, IH.
Qed.


Lemma for_each_length {A B} (f : A -> result B) (xs : list A) (ys : list B) :
  for_each f xs = Ok ys -> length ys = length xs.
Proof.
  intros H. apply for_each_Ok_inv in H.
  by apply Forall2_length in H.
Qed.

(** ** Discovery, both ways *)



(** ** [gb_dict] *)

Lemma gb_dict_lookup (level : string) :
  gb_dict !! level
  = if decide (level = "Subject") then Some ["subject"; "contrast"]
    else if decide (level = "Session") then Some ["session"; "contrast"]
    else if decide (level = "Dataset") then Some ["contrast"]
    else None.
Proof.
  unfold gb_dict.
  destruct (decide (level = "Subject")) as [->|H1]; [done|].
  rewrite lookup_insert_ne by done.
  destruct (decide (level = "Session")) as [->|H2]; [done|].
  rewrite lookup_insert_ne by done.
  destruct (decide (level = "Dataset")) as [->|H3]; [done|].
  by rewrite lookup_insert_ne by done.
Qed.

(** ** Strings *)

Lemma String_length_app (s t : string) :
  String.length (s +:+ t) = (String.length s + String.length t)%nat.
Proof. induction s as [|a s IH]; simpl; [done|]. by rewrite IH. Qed.

Lemma String_app_inj_r (t s1 s2 : string) :
  s1 +:+ t = s2 +:+ t -> s1 = s2.
Proof.
  revert s2. induction s1 as [|a1 s1 IH]; intros [|a2 s2] H; [done|..].
  - apply (f_equal String.length) in H.
    change ("" +:+ t) with t in H. rewrite String_length_app in H.
    simpl in H. lia.
  - apply (f_equal String.length) in H.
    change ("" +:+ t) with t in H. rewrite String_length_app in H.
    simpl in H. lia.
  - injection H as -> H. f_equal. by apply IH.
Qed.

Lemma ovr_name_inj (k : nat) (tt1 tt2 : string) :
  ovr_name k tt1 = ovr_name k tt2 -> tt1 = tt2.
Proof.
  unfold ovr_name. destruct (bool_decide (1 < k)%nat); intros H.
  - apply (inj (String.app "run_")) in H. by apply String_app_inj_r in H.
  - by apply (inj (String.app "run_")) in H.
Qed.

Lemma inherit_NoDup (prefix : string) (names : list string) :
  NoDup names -> NoDup (inherit prefix names).
Proof.
  intros Hnd. unfold inherit.
  apply (NoDup_fmap_2_strong (fun cn => prefix +:+ "_" +:+ cn)); [|done].
  intros x y _ _ H. apply (inj (String.app prefix)) in H.
  by apply (inj (String.app "_")) in H.
Qed.

Lemma inherit_length (prefix : string) (names : list string) :
  length (inherit prefix names) = length names.
Proof. apply length_map. Qed.

Lemma ovr_contrast_names_NoDup (trial_types : list string) :
  NoDup trial_types ->
  NoDup (map Contrast.Name (map (ovr_contrast trial_types) trial_types)).
Proof.
  intros Hnd. rewrite map_map. cbn [ovr_contrast Contrast.Name].
  apply (NoDup_fmap_2_strong (ovr_name (length trial_types))); [|done].
  intros x y _ _. apply ovr_name_inj.
Qed.

(** ** [np.unique] sees a set *)

Lemma np_unique_ext (ar1 ar2 : list string) :
  (forall x, x ∈ ar1 <-> x ∈ ar2) -> np_unique ar1 = np_unique ar2.
Proof.
  intros Hel.
  apply (StronglySorted_unique_strong String_lt);
    [| apply np_unique_sorted | apply np_unique_sorted |].
  - intros x1 x2 _ _ [_ Hn] [Hle _]. by destruct Hn.
  - apply NoDup_Permutation; [apply np_unique_NoDup..|].
    intros x. by rewrite !np_unique_elem.
Qed.

Lemma np_unique_idemp (ar : list string) :
  np_unique (np_unique ar) = np_unique ar.
Proof. apply np_unique_ext. intros x. apply np_unique_elem. Qed.

(** ** One task, without assumption on the loader *)

Section any_task.

Variable load_variables :
  BIDSLayout -> string -> list string -> option Z -> result NodeIndex.
Variables (layout : BIDSLayout) (scan_length : option Z).
Variables (one_vs_rest : bool) (base_name task_name : string).

Lemma task_model_Ok :
  loadable load_variables layout scan_length task_name ->
  exists nodes,
    task_model load_variables layout scan_length one_vs_rest
      base_name task_name
    = Ok (TaskModel.mk (base_name +:+ "_" +:+ task_name)
            ("Autogenerated model for the " +:+ task_name +:+ " task from "
               +:+ base_name)
            "1.0.0" {[ "task" := [task_name] ]} nodes).
Proof.
  intros (run_nodes & valss & Hload & Hvars). destruct one_vs_rest.
  - eexists. by apply (task_model_true _ _ _ _ _ run_nodes valss).
  - eexists. by apply (task_model_false _ _ _ _ _ run_nodes valss).
Qed.



End any_task.

(** ** [_make_passthrough_contrast] on any level *)

(** X1. A level that is not a key of [gb_dict] makes
    [_make_passthrough_contrast] raise [KeyError] on that level, whatever
    the contrast names, also when there is none. *)
Theorem passthrough_unknown_level (level : string) (names : list string)
    (model_type test : string) :
  level ∉ ["Subject"; "Session"; "Dataset"] ->
  _make_passthrough_contrast level names model_type test
  = Raise (KeyError level).
Proof.
  intros Hl. apply make_passthrough_KeyError.
  rewrite gb_dict_lookup.
  repeat (destruct (decide _) as [->|_];
          [exfalso; apply Hl; rewrite !elem_of_cons; auto|]).
  done.
Qed.

(** X2. On a level of [gb_dict], for any [test] and model type, the block
    has one contrast for each name and in their order, each tests [test]
    on the single condition it is made of, the model's X is the names
    given, and names that are distinct give contrasts whose names are
    distinct. *)
Theorem passthrough_keeps_names_apart (level : string) (gb names : list string)
    (model_type test : string) :
  gb_dict !! level = Some gb ->
  exists blk ccs,
    _make_passthrough_contrast level names model_type test = Ok blk
    /\ Node.GroupBy blk = gb
    /\ Model.Type_ (Node.Model blk) = model_type
    /\ Model.X (Node.Model blk) = names
    /\ Node.Contrasts blk = Some ccs
    /\ length ccs = length names
    /\ map Contrast.ConditionList ccs = map (fun cn => [cn]) names
    /\ Forall (fun c => Contrast.Test c = test) ccs
    /\ (NoDup names -> NoDup (map Contrast.Name ccs)).
Proof.
  intros Hgb. unfold _make_passthrough_contrast, getitem. rewrite Hgb, bind_Ok.
  eexists _, _. repeat (split; [reflexivity|]).
  split; [apply length_map|]. split; [by rewrite map_map|]. split.
  - apply Forall_forall. intros c Hc.
    by apply list_elem_of_fmap in Hc as (cn & -> & _).
  - intros Hnd. rewrite map_map. cbn [Contrast.Name].
    apply (NoDup_fmap_2_strong (fun cn => lower level +:+ "_" +:+ cn));
      [|done].
    intros x y _ _ H. apply (inj (String.app (lower level))) in H.
    by apply (inj (String.app "_")) in H.
Qed.

(** ** [auto_model] on any dataset *)

Section any_dataset.

Variable load_variables :
  BIDSLayout -> string -> list string -> option Z -> result NodeIndex.
Variables (layout : BIDSLayout) (scan_length : option Z).
Variable one_vs_rest : bool.

Lemma for_each_task_model_Ok (base_name : string) (tasks : list string) :
  Forall (loadable load_variables layout scan_length) tasks ->
  exists models,
    for_each (task_model load_variables layout scan_length one_vs_rest
                base_name) tasks = Ok models
    /\ Forall2 (fun task m =>
         TaskModel.Name m = base_name +:+ "_" +:+ task
         /\ TaskModel.Description m
            = "Autogenerated model for the " +:+ task +:+ " task from "
                +:+ base_name
         /\ TaskModel.BIDSModelVersion m = "1.0.0"
         /\ TaskModel.Input m = {[ "task" := [task] ]}) tasks models.
Proof.
  induction 1 as [|task tasks Htask _ (models & Hmodels & Hall)].
  { exists []. split; [done | constructor]. }
  destruct (task_model_Ok load_variables layout scan_length one_vs_rest
              base_name task Htask) as (nodes & Hm).
  eexists (_ :: models). cbn [for_each].
  rewrite Hm, bind_Ok, Hmodels. split; [reflexivity|].
  by constructor.
Qed.

(** X3. When the dataset has tasks and each of them loads with a
    [trial_type] variable in every run, [auto_model] returns one model
    for each task, in the order of the tasks, named [<root>_<task>], with
    the description that cites the task and the root, version "1.0.0" and
    the task as its only input; with or without [one_vs_rest]. *)
Theorem one_model_per_task (tasks : list string) :
  entities layout !! "task" = Some tasks ->
  Forall (loadable load_variables layout scan_length) tasks ->
  exists models,
    auto_model load_variables layout scan_length one_vs_rest = Ok models
    /\ Forall2 (fun task m =>
         TaskModel.Name m = root_name layout +:+ "_" +:+ task
         /\ TaskModel.Description m
            = "Autogenerated model for the " +:+ task +:+ " task from "
                +:+ root_name layout
         /\ TaskModel.BIDSModelVersion m = "1.0.0"
         /\ TaskModel.Input m = {[ "task" := [task] ]}) tasks models.
Proof.
  intros Htasks Hall. unfold auto_model, getitem. rewrite Htasks, bind_Ok.
  by apply for_each_task_model_Ok.
Qed.


(** X5. What the loader raises for a task reaches the caller of
    [auto_model] as it is, when the tasks before it load: no model is
    returned, not even those of the tasks before. *)
Theorem loader_error_propagates (pre post : list string) (task : string)
    (e : exn) :
  entities layout !! "task" = Some (pre ++ task :: post) ->
  Forall (loadable load_variables layout scan_length) pre ->
  load_variables layout task ["run"] scan_length = Raise e ->
  auto_model load_variables layout scan_length one_vs_rest = Raise e.
Proof.
  intros Htasks Hpre Hload. unfold auto_model, getitem.
  rewrite Htasks, bind_Ok. apply for_each_Raise_first.
  - eapply Forall_impl; [exact Hpre|]. intros t Ht.
    destruct (task_model_Ok load_variables layout scan_length one_vs_rest
                (root_name layout) t Ht) as (nodes & Hm).
    by eexists.
  - unfold task_model. by rewrite Hload.
Qed.


End any_dataset.

(** ** One task whose runs load *)

Lemma upper_counts (multi_session multi_subject : bool)
    (names : list string) :
  Forall (fun blk => exists ccs,
            Node.Contrasts blk = Some ccs /\ length ccs = length names)
    (upper multi_session multi_subject names).
Proof.
  destruct multi_session, multi_subject; cbn [upper];
    repeat constructor; eexists; (split; [reflexivity|]);
    by rewrite length_map, ?inherit_length.
Qed.

Lemma upper_names_NoDup (multi_session multi_subject : bool)
    (names : list string) :
  NoDup names ->
  Forall (fun blk => forall ccs, Node.Contrasts blk = Some ccs ->
            NoDup (map Contrast.Name ccs))
    (upper multi_session multi_subject names).
Proof.
  intros Hnd.
  destruct multi_session, multi_subject; cbn [upper];
    repeat constructor; intros ccs [= <-];
    rewrite dummy_contrast_names; by repeat apply inherit_NoDup.
Qed.

Section loaded_task.

Variable load_variables :
  BIDSLayout -> string -> list string -> option Z -> result NodeIndex.
Variables (layout : BIDSLayout) (scan_length : option Z).
Variables (base_name task_name : string).
Variables (run_nodes : NodeIndex) (valss : list (list string)).
Hypothesis Hload :
  load_variables layout task_name ["run"] scan_length = Ok run_nodes.
Hypothesis Hvars :
  Forall2 (fun n vals => variables n !! "trial_type" = Some vals)
    (nodes run_nodes) valss.

Let trial_types : list string := np_unique (concat valss).

(** X7. [one_vs_rest] changes nothing of what the model has without it:
    the same name, description, version and input, and a first block that
    is the run block of the model without [one_vs_rest] with the key
    Contrasts set; the other blocks come after it. *)
Theorem one_vs_rest_only_adds :
  exists plain full run contrasts rest,
    task_model load_variables layout scan_length false base_name task_name
      = Ok plain
    /\ task_model load_variables layout scan_length true base_name task_name
       = Ok full
    /\ TaskModel.Nodes plain = [run]
    /\ TaskModel.Nodes full = set_Contrasts run contrasts :: rest
    /\ TaskModel.Name full = TaskModel.Name plain
    /\ TaskModel.Description full = TaskModel.Description plain
    /\ TaskModel.BIDSModelVersion full = TaskModel.BIDSModelVersion plain
    /\ TaskModel.Input full = TaskModel.Input plain.
Proof.
  eexists _, _, _, _, _.
  split; [by apply (task_model_false _ _ _ _ _ run_nodes valss)|].
  split; [by apply (task_model_true _ _ _ _ _ run_nodes valss)|].
  by repeat (split; [reflexivity|]).
Qed.

(** X8. With [one_vs_rest] every block of the model has the key
    Contrasts, with as many contrasts as there are trial types. *)
Theorem as_many_contrasts_as_trial_types :
  exists m,
    task_model load_variables layout scan_length true base_name task_name
      = Ok m
    /\ Forall (fun blk => exists ccs,
         Node.Contrasts blk = Some ccs
         /\ length ccs = length trial_types) (TaskModel.Nodes m).
Proof.
  eexists. split; [by apply (task_model_true _ _ _ _ _ run_nodes valss)|].
  cbn [TaskModel.Nodes]. fold trial_types. constructor.
  - eexists. split; [reflexivity|]. apply length_map.
  - eapply Forall_impl; [apply upper_counts|].
    intros blk (ccs & Hc & Hlen). exists ccs. split; [done|].
    by rewrite Hlen, !length_map.
Qed.

(** X9. In every block of the model the contrasts have names that differ
    from one another. *)
Theorem contrast_names_distinct (one_vs_rest : bool) :
  exists m,
    task_model load_variables layout scan_length one_vs_rest
      base_name task_name = Ok m
    /\ Forall (fun blk => forall ccs, Node.Contrasts blk = Some ccs ->
         NoDup (map Contrast.Name ccs)) (TaskModel.Nodes m).
Proof.
  destruct one_vs_rest; eexists.
  - split; [by apply (task_model_true _ _ _ _ _ run_nodes valss)|].
    cbn [TaskModel.Nodes]. fold trial_types.
    assert (Hnd : NoDup (map Contrast.Name
                           (map (ovr_contrast trial_types) trial_types)))
      by apply ovr_contrast_names_NoDup, np_unique_NoDup.
    constructor; [by intros ccs [= <-]|].
    by apply upper_names_NoDup.
  - split; [by apply (task_model_false _ _ _ _ _ run_nodes valss)|].
    cbn [TaskModel.Nodes]. constructor; [|constructor]. intros ccs [=].
Qed.

(** X10. The names of the contrasts of the Dataset block, written out:
    the name of the run contrast of each trial type, in the order of the
    trial types, behind "session_" when there is a Session block, behind
    "subject_" when there is a Subject block, and behind "dataset_". *)
Theorem dataset_contrast_names :
  exists m dataset ccs,
    task_model load_variables layout scan_length true base_name task_name
      = Ok m
    /\ last (TaskModel.Nodes m) = Some dataset
    /\ Node.Level dataset = "Dataset"
    /\ Node.Contrasts dataset = Some ccs
    /\ map Contrast.Name ccs
       = map (fun tt =>
                "dataset_"
                +:+ (if bool_decide (1 < length (get_subjects layout))%nat
                     then "subject_" else "")
                +:+ (if bool_decide (1 < length (get_sessions layout))%nat
                     then "session_" else "")
                +:+ (if bool_decide (1 < length trial_types)%nat
                     then "run_" +:+ tt +:+ "_vs_others"
                     else "run_" +:+ tt)) trial_types.
Proof.
  rewrite (task_model_true _ _ _ _ _ run_nodes valss Hload Hvars).
  fold trial_types.
  destruct (bool_decide (1 < length (get_sessions layout))%nat);
    destruct (bool_decide (1 < length (get_subjects layout))%nat);
    cbn [upper]; eexists _, _, _;
    (split; [reflexivity|]); (split; [reflexivity|]);
    (split; [reflexivity|]); (split; [reflexivity|]);
    rewrite dummy_contrast_names; unfold inherit; rewrite !map_map;
    apply map_ext; intros tt; reflexivity.
Qed.

End loaded_task.

(** X11. The model of a task depends on the labels of its runs as a set:
    two loads whose runs have the same labels, in whatever order, number
    of runs and repetition, give the same model. *)
Theorem model_of_label_set
    (load1 load2 :
       BIDSLayout -> string -> list string -> option Z -> result NodeIndex)
    (layout : BIDSLayout) (scan_length : option Z) (one_vs_rest : bool)
    (base_name task_name : string)
    (run_nodes1 run_nodes2 : NodeIndex) (valss1 valss2 : list (list string)) :
  load1 layout task_name ["run"] scan_length = Ok run_nodes1 ->
  load2 layout task_name ["run"] scan_length = Ok run_nodes2 ->
  Forall2 (fun n vals => variables n !! "trial_type" = Some vals)
    (nodes run_nodes1) valss1 ->
  Forall2 (fun n vals => variables n !! "trial_type" = Some vals)
    (nodes run_nodes2) valss2 ->
  (forall label, label ∈ concat valss1 <-> label ∈ concat valss2) ->
  task_model load1 layout scan_length one_vs_rest base_name task_name
  = task_model load2 layout scan_length one_vs_rest base_name task_name.
Proof.
  intros Hl1 Hl2 Hv1 Hv2 Hset.
  destruct one_vs_rest.
  - rewrite (task_model_true _ _ _ _ _ _ _ Hl1 Hv1),
      (task_model_true _ _ _ _ _ _ _ Hl2 Hv2).
    by rewrite (np_unique_ext _ _ Hset).
  - rewrite (task_model_false _ _ _ _ _ _ _ Hl1 Hv1),
      (task_model_false _ _ _ _ _ _ _ Hl2 Hv2).
    by rewrite (np_unique_ext _ _ Hset).
Qed.

(** X12. Only the run block has Transformations and an HRF: it is the
    first block, with the Factor instruction on [trial_type] and the HRF
    over the regressors of its model; every block after it has neither,
    and every block is named after its level. *)
Theorem only_run_block_transforms
    (load_variables :
       BIDSLayout -> string -> list string -> option Z -> result NodeIndex)
    (layout : BIDSLayout) (scan_length : option Z) (one_vs_rest : bool)
    (base_name task_name : string)
    (run_nodes : NodeIndex) (valss : list (list string)) :
  load_variables layout task_name ["run"] scan_length = Ok run_nodes ->
  Forall2 (fun n vals => variables n !! "trial_type" = Some vals)
    (nodes run_nodes) valss ->
  exists m run rest hrf,
    task_model load_variables layout scan_length one_vs_rest
      base_name task_name = Ok m
    /\ TaskModel.Nodes m = run :: rest
    /\ Node.Transformations run
       = Some (Transformations.mk "pybids-transforms-v1"
                 [Instruction.mk "Factor" "trial_type"])
    /\ Model.HRF (Node.Model run) = Some hrf
    /\ HRF.Variables hrf = Model.X (Node.Model run)
    /\ Forall (fun blk => Node.Transformations blk = None
                          /\ Model.HRF (Node.Model blk) = None) rest
    /\ Forall (fun blk => Node.Name blk = Node.Level blk) (run :: rest).
Proof.
  intros Hload Hvars. destruct one_vs_rest.
  - rewrite (task_model_true _ _ _ _ _ _ _ Hload Hvars).
    destruct (bool_decide (1 < length (get_sessions layout))%nat);
      destruct (bool_decide (1 < length (get_subjects layout))%nat);
      cbn [upper]; eexists _, _, _, _;
      repeat (split; [reflexivity|]); split; by repeat constructor.
  - rewrite (task_model_false _ _ _ _ _ _ _ Hload Hvars).
    eexists _, _, _, _.
    repeat (split; [reflexivity|]); split; by repeat constructor.
Qed.

(** ** Contrasts and the regressors of their block *)

Lemma passthrough_conditions (level prefix : string) (gb : list string)
    (model_type : string) (names : list string) (ccs : list Contrast.t) :
  Node.Contrasts (passthrough level prefix gb model_type names) = Some ccs ->
  Forall (fun c => Contrast.ConditionList c
                   ⊆ Model.X (Node.Model
                                (passthrough level prefix gb model_type names)))
    ccs.
Proof.
  intros [= <-]. apply Forall_forall. intros c Hc.
  apply list_elem_of_fmap in Hc as (cn & -> & Hcn).
  cbn. intros x Hx. apply list_elem_of_singleton in Hx as ->. exact Hcn.
Qed.

Lemma upper_conditions (multi_session multi_subject : bool)
    (names : list string) :
  Forall (fun blk => forall ccs, Node.Contrasts blk = Some ccs ->
            Forall (fun c => Contrast.ConditionList c
                             ⊆ Model.X (Node.Model blk)) ccs)
    (upper multi_session multi_subject names).
Proof.
  destruct multi_session, multi_subject; cbn [upper];
    repeat constructor; intros ccs; apply passthrough_conditions.
Qed.

(** X13. A contrast only names regressors of the model of its own block:
    in every block, the conditions of every contrast are among the X of
    the block. *)
Theorem conditions_among_regressors
    (load_variables :
       BIDSLayout -> string -> list string -> option Z -> result NodeIndex)
    (layout : BIDSLayout) (scan_length : option Z) (one_vs_rest : bool)
    (base_name task_name : string)
    (run_nodes : NodeIndex) (valss : list (list string)) :
  load_variables layout task_name ["run"] scan_length = Ok run_nodes ->
  Forall2 (fun n vals => variables n !! "trial_type" = Some vals)
    (nodes run_nodes) valss ->
  exists m,
    task_model load_variables layout scan_length one_vs_rest
      base_name task_name = Ok m
    /\ Forall (fun blk => forall ccs, Node.Contrasts blk = Some ccs ->
         Forall (fun c => forall x, x ∈ Contrast.ConditionList c ->
                            x ∈ Model.X (Node.Model blk)) ccs)
         (TaskModel.Nodes m).
Proof.
  intros Hload Hvars. destruct one_vs_rest; eexists.
  - split; [apply (task_model_true _ _ _ _ _ _ _ Hload Hvars)|].
    cbn [TaskModel.Nodes]. constructor; [|apply upper_conditions].
    intros ccs [= <-]. apply Forall_forall. intros c Hc.
    by apply list_elem_of_fmap in Hc as (tt & -> & _).
  - split; [apply (task_model_false _ _ _ _ _ _ _ Hload Hvars)|].
    cbn [TaskModel.Nodes]. constructor; [|constructor]. intros ccs [=].
Qed.

(** ** The further properties on the dataset *)

Lemma passthrough_unknown_level_witness :
  ("Run" ∉ ["Subject"; "Session"; "Dataset"])
  /\ _make_passthrough_contrast "Run" [] "meta" "t" = Raise (KeyError "Run").
Proof.
  assert (H : "Run" ∉ ["Subject"; "Session"; "Dataset"]).
  { rewrite !not_elem_of_cons. repeat split; [done..|]. apply not_elem_of_nil. }
  split; [exact H|].
  exact (passthrough_unknown_level "Run" [] "meta" "t" H).
Defined.

Lemma passthrough_keeps_names_apart_witness :
  gb_dict !! "Subject" = Some ["subject"; "contrast"]
  /\ exists blk ccs,
       _make_passthrough_contrast "Subject" ["a"; "b"] "meta" "F" = Ok blk
       /\ Node.Contrasts blk = Some ccs
       /\ length ccs = 2%nat
       /\ Forall (fun c => Contrast.Test c = "F") ccs.
Proof.
  split; [reflexivity|].
  destruct (passthrough_keeps_names_apart "Subject" ["subject"; "contrast"]
              ["a"; "b"] "meta" "F" eq_refl)
    as (blk & ccs & Hb & _ & _ & _ & Hc & Hlen & _ & Ht & _).
  exists blk, ccs. repeat split; assumption.
Defined.

Lemma one_model_per_task_witness :
  exists models,
    auto_model demo_load demo_layout None true = Ok models
    /\ map TaskModel.Name models = ["ds_rest"; "ds_single"].
Proof.
  destruct (one_model_per_task demo_load demo_layout None true
              ["rest"; "single"] eq_refl demo_tasks_loadable)
    as (models & Hm & Hall).
  exists models. split; [exact Hm|].
  destruct models as [|m1 [|m2 [|m3 models]]];
    try (exfalso; apply Forall2_length in Hall; discriminate Hall).
  apply Forall2_cons_1 in Hall as [(H1 & _) Hall].
  apply Forall2_cons_1 in Hall as [(H2 & _) _].
  cbn [map]. rewrite H1, H2. reflexivity.
Defined.

Lemma demo_rest_loadable :
  Forall (loadable demo_load demo_layout_unknown None) ["rest"].
Proof.
  constructor; [|constructor].
  exists {| nodes := map with_trial_type demo_valss |}, demo_valss.
  split; [reflexivity | exact demo_rest_vars].
Defined.

Lemma loader_error_propagates_witness :
  demo_load demo_layout_unknown "nback" ["run"] None = Raise (LoadError "nback")
  /\ auto_model demo_load demo_layout_unknown None true
     = Raise (LoadError "nback").
Proof.
  split; [reflexivity|].
  exact (loader_error_propagates demo_load demo_layout_unknown None true
           ["rest"] ["single"] "nback" (LoadError "nback")
           eq_refl demo_rest_loadable eq_refl).
Defined.


Lemma one_vs_rest_only_adds_witness :
  exists plain full run contrasts rest,
    task_model demo_load demo_layout None false "ds" "rest" = Ok plain
    /\ task_model demo_load demo_layout None true "ds" "rest" = Ok full
    /\ TaskModel.Nodes plain = [run]
    /\ TaskModel.Nodes full = set_Contrasts run contrasts :: rest.
Proof.
  destruct (one_vs_rest_only_adds demo_load demo_layout None "ds" "rest"
              _ demo_valss demo_rest_loads demo_rest_vars)
    as (plain & full & run & contrasts & rest & Hp & Hf & Hnp & Hnf & _).
  exists plain, full, run, contrasts, rest. repeat split; assumption.
Defined.

Lemma as_many_contrasts_as_trial_types_witness :
  exists m,
    task_model demo_load demo_layout None true "ds" "rest" = Ok m
    /\ Forall (fun blk => exists ccs,
         Node.Contrasts blk = Some ccs /\ length ccs = 2%nat)
         (TaskModel.Nodes m).
Proof.
  exact (as_many_contrasts_as_trial_types demo_load demo_layout None
           "ds" "rest" _ demo_valss demo_rest_loads demo_rest_vars).
Defined.

Lemma contrast_names_distinct_witness :
  exists m,
    task_model demo_load demo_layout None true "ds" "rest" = Ok m
    /\ Forall (fun blk => forall ccs, Node.Contrasts blk = Some ccs ->
         NoDup (map Contrast.Name ccs)) (TaskModel.Nodes m).
Proof.
  exact (contrast_names_distinct demo_load demo_layout None "ds" "rest"
           _ demo_valss demo_rest_loads demo_rest_vars true).
Defined.

Lemma dataset_contrast_names_witness :
  exists m dataset ccs,
    task_model demo_load demo_layout None true "ds" "rest" = Ok m
    /\ last (TaskModel.Nodes m) = Some dataset
    /\ Node.Contrasts dataset = Some ccs
    /\ map Contrast.Name ccs
       = ["dataset_session_run_go_vs_others";
          "dataset_session_run_stop_vs_others"].
Proof.
  destruct (dataset_contrast_names demo_load demo_layout None "ds" "rest"
              _ demo_valss demo_rest_loads demo_rest_vars)
    as (m & dataset & ccs & Hm & Hl & _ & Hc & Hn).
  exists m, dataset, ccs. repeat split; assumption.
Defined.

Lemma demo_shuffled_vars :
  Forall2 (fun n vals => variables n !! "trial_type" = Some vals)
    (map with_trial_type demo_valss_shuffled) demo_valss_shuffled.
Proof. repeat constructor. Defined.

Lemma demo_same_labels (label : string) :
  label ∈ concat demo_valss <-> label ∈ concat demo_valss_shuffled.
Proof.
  unfold demo_valss, demo_valss_shuffled. cbn [concat app].
  rewrite !elem_of_cons, !elem_of_nil. tauto.
Defined.

Lemma model_of_label_set_witness :
  task_model demo_load demo_layout None true "ds" "rest"
  = task_model demo_load_shuffled demo_layout None true "ds" "rest".
Proof.
  exact (model_of_label_set demo_load demo_load_shuffled demo_layout None
           true "ds" "rest" _ _ demo_valss demo_valss_shuffled
           demo_rest_loads eq_refl demo_rest_vars demo_shuffled_vars
           demo_same_labels).
Defined.

Lemma only_run_block_transforms_witness :
  exists m run rest,
    task_model demo_load demo_layout None true "ds" "rest" = Ok m
    /\ TaskModel.Nodes m = run :: rest
    /\ Forall (fun blk => Node.Transformations blk = None
                          /\ Model.HRF (Node.Model blk) = None) rest.
Proof.
  destruct (only_run_block_transforms demo_load demo_layout None true
              "ds" "rest" _ demo_valss demo_rest_loads demo_rest_vars)
    as (m & run & rest & hrf & Hm & Hn & _ & _ & _ & Hrest & _).
  exists m, run, rest. repeat split; assumption.
Defined.

Lemma conditions_among_regressors_witness :
  exists m,
    task_model demo_load demo_layout None true "ds" "rest" = Ok m
    /\ Forall (fun blk => forall ccs, Node.Contrasts blk = Some ccs ->
         Forall (fun c => forall x, x ∈ Contrast.ConditionList c ->
                            x ∈ Model.X (Node.Model blk)) ccs)
         (TaskModel.Nodes m).
Proof.
  exact (conditions_among_regressors demo_load demo_layout None true
           "ds" "rest" _ demo_valss demo_rest_loads demo_rest_vars).
Defined.
